(** * Blackhole DNS resolver: the query-resolution logic of [blackhole.py]

    A shallow embedding of [BlackholeResolver.resolve] and of its helpers,
    together with the part of [dnslib] ([bit.py], [label.py], [dns.py]) and
    of Python's [str] the resolver calls.  Python exceptions are values of an
    error monad that also collects the log lines written through [loguru]. *)

From Stdlib Require Import ZArith List String Ascii Bool Lia DecimalString.
Import ListNotations.
Open Scope string_scope.
Open Scope Z_scope.

(** ** Python strings *)

Module PyStr.

(** [sep.join(parts)] *)
Fixpoint join (sep : string) (parts : list string) : string :=
  match parts with
  | [] => ""
  | [p] => p
  | p :: ps => p ++ sep ++ join sep ps
  end.

(** [s.rstrip(c)] for a one-character argument: every trailing [c] goes. *)
Fixpoint rstrip (c : ascii) (s : string) : string :=
  match s with
  | EmptyString => EmptyString
  | String a s' =>
      match rstrip c s' with
      | EmptyString => if Ascii.eqb a c then EmptyString else String a EmptyString
      | r => String a r
      end
  end.

(** [s.endswith(suffix)] *)
Definition endswith (s suffix : string) : bool :=
  let n := String.length s in
  let m := String.length suffix in
  if (m <=? n)%nat then String.eqb (substring (n - m) m s) suffix else false.

(** [s.split(sep)] for a one-character separator. *)
Fixpoint split (sep : ascii) (s : string) : list string :=
  match s with
  | EmptyString => [EmptyString]
  | String a s' =>
      if Ascii.eqb a sep then EmptyString :: split sep s'
      else match split sep s' with
           | [] => [String a EmptyString]
           | p :: ps => String a p :: ps
           end
  end.

(** ["%d" % n] *)
Definition fmt_d (n : Z) : string := NilZero.string_of_int (Z.to_int n).


End PyStr.

(** ** dnslib *)

(** A Python value stored in a field that the library does not type-check:
    an integer, as the wire gives a question's type, or a text or [None], for
    which the type lookup raises.  Other Python values are left out. *)
Inductive PyVal : Type :=
| PyInt (n : Z)
| PyString (s : string)
| PyNone.

(** [dnslib.bit] *)
Module Bit.

Definition get_bits (data offset bits : Z) : Z :=
  let mask := Z.shiftl (Z.shiftl 1 bits - 1) offset in
  Z.shiftr (Z.land data mask) offset.

Definition set_bits (data value offset bits : Z) : Z :=
  let mask := Z.shiftl (Z.shiftl 1 bits - 1) offset in
  let clear := Z.lxor 65535 mask in
  Z.lor (Z.land data clear) (Z.land (Z.shiftl value offset) mask).

End Bit.

(** [dnslib.label.DNSLabel]: a tuple of labels, each a byte string. *)
Module DNSLabel.

Definition t : Type := list string.

Definition is_upper (c : ascii) : bool :=
  let n := N_of_ascii c in ((65 <=? n) && (n <=? 90))%N.

(** [LDH = set(range(33,127))]: the printable bytes but the space, which a
    label's text shows as they are; the dot is one of them. *)
Definition LDH (c : ascii) : bool :=
  let n := N_of_ascii c in ((33 <=? n) && (n <=? 126))%N.

Definition digit (d : N) : ascii := ascii_of_N (48 + d).

(** ["\\%03d" % c] *)
Definition escape (c : ascii) : string :=
  let n := N_of_ascii c in
  String "\"%char
    (String (digit (n / 100))
       (String (digit ((n / 10) mod 10))
          (String (digit (n mod 10)) EmptyString))).

Fixpoint forallb_str (p : ascii -> bool) (s : string) : bool :=
  match s with
  | EmptyString => true
  | String a s' => p a && forallb_str p s'
  end.

Fixpoint concat_map (f : ascii -> string) (s : string) : string :=
  match s with
  | EmptyString => EmptyString
  | String a s' => f a ++ concat_map f s'
  end.

(** [DNSLabel._decode] *)
Definition _decode (s : string) : string :=
  if forallb_str LDH s then s
  else concat_map (fun c => if LDH c then String c EmptyString else escape c) s.

(** [DNSLabel.__str__] *)
Definition str (l : t) : string :=
  PyStr.join "." (map _decode l) ++ ".".

(** [DNSLabel(label)] for a text of letters, digits, hyphens and dots: the
    trailing dots go and the rest splits at the dots. *)
Definition of_text (label : string) : t :=
  if String.eqb label "" || String.eqb label "." then []
  else PyStr.split "." (PyStr.rstrip "." label).

End DNSLabel.

(** [dnslib.dns.DNSHeader]: the flags live in the 16-bit [bitmap]. *)
Module DNSHeader.

Record t : Type := mk {
  id : Z;
  bitmap : Z;
  q : Z;
  a : Z;
  auth : Z;
  ar : Z
}.

Definition with_bitmap (h : t) (b : Z) : t :=
  mk (id h) b (q h) (a h) (auth h) (ar h).

Definition get_qr (h : t) : Z := Bit.get_bits (bitmap h) 15 1.
Definition set_qr (h : t) (v : Z) : t := with_bitmap h (Bit.set_bits (bitmap h) v 15 1).
Definition get_opcode (h : t) : Z := Bit.get_bits (bitmap h) 11 4.
Definition set_opcode (h : t) (v : Z) : t := with_bitmap h (Bit.set_bits (bitmap h) v 11 4).
Definition get_aa (h : t) : Z := Bit.get_bits (bitmap h) 10 1.
Definition set_aa (h : t) (v : Z) : t := with_bitmap h (Bit.set_bits (bitmap h) v 10 1).
Definition get_tc (h : t) : Z := Bit.get_bits (bitmap h) 9 1.
Definition set_tc (h : t) (v : Z) : t := with_bitmap h (Bit.set_bits (bitmap h) v 9 1).
Definition get_rd (h : t) : Z := Bit.get_bits (bitmap h) 8 1.
Definition set_rd (h : t) (v : Z) : t := with_bitmap h (Bit.set_bits (bitmap h) v 8 1).
Definition get_ra (h : t) : Z := Bit.get_bits (bitmap h) 7 1.
Definition set_ra (h : t) (v : Z) : t := with_bitmap h (Bit.set_bits (bitmap h) v 7 1).
Definition get_z (h : t) : Z := Bit.get_bits (bitmap h) 6 1.
Definition set_z (h : t) (v : Z) : t := with_bitmap h (Bit.set_bits (bitmap h) v 6 1).
Definition get_ad (h : t) : Z := Bit.get_bits (bitmap h) 5 1.
Definition set_ad (h : t) (v : Z) : t := with_bitmap h (Bit.set_bits (bitmap h) v 5 1).
Definition get_cd (h : t) : Z := Bit.get_bits (bitmap h) 4 1.
Definition set_cd (h : t) (v : Z) : t := with_bitmap h (Bit.set_bits (bitmap h) v 4 1).
Definition get_rcode (h : t) : Z := Bit.get_bits (bitmap h) 0 4.
Definition set_rcode (h : t) (v : Z) : t := with_bitmap h (Bit.set_bits (bitmap h) v 0 4).

(** One keyword argument of the constructor. *)
Definition set_arg (h : t) (kv : string * Z) : t :=
  let (k, v) := kv in
  if String.eqb k "qr" then set_qr h v
  else if String.eqb k "opcode" then set_opcode h v
  else if String.eqb k "aa" then set_aa h v
  else if String.eqb k "tc" then set_tc h v
  else if String.eqb k "rd" then set_rd h v
  else if String.eqb k "ra" then set_ra h v
  else if String.eqb k "z" then set_z h v
  else if String.eqb k "ad" then set_ad h v
  else if String.eqb k "cd" then set_cd h v
  else if String.eqb k "rcode" then set_rcode h v
  else h.

(** [DNSHeader(id=i, **args)]: the bitmap starts at 0 with [rd] set, the
    section counts at 0, then the keyword arguments apply in order. *)
Definition init (i : Z) (args : list (string * Z)) : t :=
  fold_left set_arg args (set_rd (mk i 0 0 0 0 0) 1).

End DNSHeader.

(** [dnslib.dns.DNSQuestion] *)
Module DNSQuestion.

Record t : Type := mk {
  qname : DNSLabel.t;
  qtype : PyVal;
  qclass : Z
}.

(** [DNSQuestion()] *)
Definition default : t := mk [] (PyInt 1) 1.

End DNSQuestion.

(** The record data the resolver publishes: [dnslib.dns.SOA] and [NS]. *)
Inductive RD : Type :=
| SOA (mname rname : DNSLabel.t) (times : Z * Z * Z * Z * Z)
| NS (label : DNSLabel.t).

(** [dnslib.dns.RR] *)
Module RR.

Record t : Type := mk {
  rname : DNSLabel.t;
  rtype : Z;
  rclass : Z;
  ttl : Z;
  rdata : RD
}.

End RR.

(** [dnslib.dns.DNSRecord] *)
Module DNSRecord.

Record t : Type := mk {
  header : DNSHeader.t;
  questions : list DNSQuestion.t;
  rr : list RR.t;
  auth : list RR.t;
  ar : list RR.t
}.

Definition len {A : Type} (l : list A) : Z := Z.of_nat (List.length l).

(** [set_header_qa]: the header's counts follow the sections. *)
Definition set_header_qa (r : t) : t :=
  mk (DNSHeader.mk (DNSHeader.id (header r)) (DNSHeader.bitmap (header r))
        (len (questions r)) (len (rr r)) (len (auth r)) (len (ar r)))
     (questions r) (rr r) (auth r) (ar r).

(** [DNSRecord(header, q=question)] *)
Definition init (h : DNSHeader.t) (question : option DNSQuestion.t) : t :=
  let qs := match question with Some x => [x] | None => [] end in
  set_header_qa (mk h qs [] [] []).

(** The [q] property: the first question, or a default one. *)
Definition get_q (r : t) : DNSQuestion.t :=
  match questions r with
  | x :: _ => x
  | [] => DNSQuestion.default
  end.

Definition add_answer (r : t) (x : RR.t) : t :=
  set_header_qa (mk (header r) (questions r) (rr r ++ [x])%list (auth r) (ar r)).

Definition add_auth (r : t) (x : RR.t) : t :=
  set_header_qa (mk (header r) (questions r) (rr r) (auth r ++ [x])%list (ar r)).

(** [r.header.rcode = v] *)
Definition set_rcode (r : t) (v : Z) : t :=
  mk (DNSHeader.set_rcode (header r) v) (questions r) (rr r) (auth r) (ar r).

(** The same record under another transaction id. *)
Definition with_id (r : t) (i : Z) : t :=
  mk (DNSHeader.mk i (DNSHeader.bitmap (header r)) (DNSHeader.q (header r))
        (DNSHeader.a (header r)) (DNSHeader.auth (header r))
        (DNSHeader.ar (header r)))
     (questions r) (rr r) (auth r) (ar r).

End DNSRecord.

(** ** Exceptions and logging *)

Inductive Level : Type := INFO | ERROR.

(** A raised exception, with its message. *)
Inductive Exn : Type :=
| DNSError (msg : string).

Definition exn_str (e : Exn) : string :=
  match e with DNSError m => m end.

(** A computation writes log lines and then returns or raises. *)
Definition M (A : Type) : Type := list (Level * string) * (Exn + A).

Definition ret {A : Type} (x : A) : M A := ([], inr x).

Definition raise {A : Type} (e : Exn) : M A := ([], inl e).

Definition bind {A B : Type} (m : M A) (f : A -> M B) : M B :=
  match m with
  | (l, inl e) => (l, inl e)
  | (l, inr x) => let (l', r) := f x in ((l ++ l')%list, r)
  end.

Notation "x <- m ;; k" := (bind m (fun x => k))
  (at level 61, m at next level, right associativity).
Notation "m ;;; k" := (bind m (fun _ => k))
  (at level 61, right associativity).

(** [try: body except Exception as e: handler(e)] *)
Definition try_except {A : Type} (body : M A) (handler : Exn -> M A) : M A :=
  match body with
  | (l, inl e) => let (l', r) := handler e in ((l ++ l')%list, r)
  | (l, inr x) => (l, inr x)
  end.

Definition logger_info (msg : string) : M unit := ([(INFO, msg)], inr tt).
Definition logger_error (msg : string) : M unit := ([(ERROR, msg)], inr tt).

(** [dnslib.dns.QTYPE], a [Bimap] with [unknown_qtype] as its error hook. *)
Module QTYPE.

Definition forward : list (Z * string) :=
  [ (1, "A"); (2, "NS"); (5, "CNAME"); (6, "SOA"); (10, "NULL"); (12, "PTR");
    (13, "HINFO"); (15, "MX"); (16, "TXT"); (17, "RP"); (18, "AFSDB");
    (24, "SIG"); (25, "KEY"); (28, "AAAA"); (29, "LOC"); (33, "SRV");
    (35, "NAPTR"); (36, "KX"); (37, "CERT"); (38, "A6"); (39, "DNAME");
    (41, "OPT"); (42, "APL"); (43, "DS"); (44, "SSHFP"); (45, "IPSECKEY");
    (46, "RRSIG"); (47, "NSEC"); (48, "DNSKEY"); (49, "DHCID"); (50, "NSEC3");
    (51, "NSEC3PARAM"); (52, "TLSA"); (53, "HIP"); (55, "HIP"); (59, "CDS");
    (60, "CDNSKEY"); (61, "OPENPGPKEY"); (62, "CSYNC"); (63, "ZONEMD");
    (64, "SVCB"); (65, "HTTPS"); (99, "SPF"); (108, "EUI48"); (109, "EUI64");
    (249, "TKEY"); (250, "TSIG"); (251, "IXFR"); (252, "AXFR"); (255, "ANY");
    (256, "URI"); (257, "CAA"); (32768, "TA"); (32769, "DLV") ].

Fixpoint lookup (k : Z) (tbl : list (Z * string)) : option string :=
  match tbl with
  | [] => None
  | (k', v) :: rest => if k =? k' then Some v else lookup k rest
  end.

Fixpoint rlookup (v : string) (tbl : list (Z * string)) : option Z :=
  match tbl with
  | [] => None
  | (k, v') :: rest =>
      match rlookup v rest with
      | Some k' => Some k'
      | None => if String.eqb v v' then Some k else None
      end
  end.

Definition py_str (k : PyVal) : string :=
  match k with
  | PyInt n => PyStr.fmt_d n
  | PyString s => s
  | PyNone => "None"
  end.

(** [QTYPE[k]]: the mnemonic of a known code, ["TYPE%d"] for another
    integer; a key that [%d] cannot format raises [DNSError]. *)
Definition getitem (k : PyVal) : M string :=
  match k with
  | PyInt n =>
      match lookup n forward with
      | Some v => ret v
      | None => ret ("TYPE" ++ PyStr.fmt_d n)
      end
  | _ => raise (DNSError ("QTYPE: Invalid forward lookup: [" ++ py_str k ++ "]"))
  end.

(** [QTYPE.SOA] and [QTYPE.NS], the reverse lookups the resolver makes. *)
Definition SOA : Z := 6.
Definition NS : Z := 2.

End QTYPE.

(** ** blackhole.py *)

(** *** Constants *)

Definition SERVER_NAME : string := "blackhole.romulan.zone".
Definition BASE_DOMAIN : string := "romulan.zone".
Definition DNS_TTL : Z := 60.

Definition SOA_RECORD : RD :=
  SOA (DNSLabel.of_text "blackhole.romulan.zone.")
      (DNSLabel.of_text "hostmaster.romulan.zone.")
      (202502191, 7200, 900, 1209600, 86400).

Definition NS_RECORDS : list RD :=
  [ NS (DNSLabel.of_text "blackhole.romulan.zone.") ].

(** Response codes written by the resolver. *)
Definition NOERROR : Z := 0.
Definition SERVFAIL : Z := 2.
Definition NXDOMAIN : Z := 3.

(** *** BlackholeResolver *)

Definition _is_valid_domain (qname : string) : bool :=
  String.eqb qname BASE_DOMAIN || PyStr.endswith qname ("." ++ BASE_DOMAIN).

Definition _handle_soa_query (reply : DNSRecord.t) (qname : DNSLabel.t) : DNSRecord.t :=
  DNSRecord.add_answer reply (RR.mk qname QTYPE.SOA 1 DNS_TTL SOA_RECORD).

Definition _handle_ns_query (reply : DNSRecord.t) (qname : DNSLabel.t) : DNSRecord.t :=
  fold_left
    (fun reply ns_record =>
       DNSRecord.add_answer reply (RR.mk qname QTYPE.NS 1 DNS_TTL ns_record))
    NS_RECORDS reply.

Definition _add_soa_to_authority (reply : DNSRecord.t) : DNSRecord.t :=
  DNSRecord.add_auth reply
    (RR.mk (DNSLabel.of_text BASE_DOMAIN) QTYPE.SOA 1 DNS_TTL SOA_RECORD).

(** [str(qname).rstrip('.')] *)
Definition domain_str (qname : DNSLabel.t) : string :=
  PyStr.rstrip "." (DNSLabel.str qname).

(** The body of the [try] block of [resolve]. *)
Definition resolve_try (request : DNSRecord.t) : M DNSRecord.t :=
  let qname := DNSQuestion.qname (DNSRecord.get_q request) in
  let qtype := DNSQuestion.qtype (DNSRecord.get_q request) in
  qt <- QTYPE.getitem qtype ;;
  logger_info ("Received query for " ++ DNSLabel.str qname ++ " with type " ++ qt) ;;;
  let reply :=
    DNSRecord.init
      (DNSHeader.init (DNSHeader.id (DNSRecord.header request))
         [("qr", 1); ("aa", 1); ("ra", 0)])
      (Some (DNSRecord.get_q request)) in
  let reply :=
    if negb (String.eqb qt "SOA") then _add_soa_to_authority reply else reply in
  let domain_str := domain_str qname in
  if String.eqb qt "SOA" && _is_valid_domain domain_str then
    let reply := _handle_soa_query reply qname in
    logger_info ("Responded to SOA query for " ++ DNSLabel.str qname) ;;;
    ret reply
  else if String.eqb qt "NS" && _is_valid_domain domain_str then
    let reply := _handle_ns_query reply qname in
    logger_info ("Responded to NS query for " ++ DNSLabel.str qname) ;;;
    ret reply
  else
    let reply := DNSRecord.set_rcode reply 3 in
    logger_info ("Returning NXDOMAIN for " ++ qt ++ " query: " ++ DNSLabel.str qname) ;;;
    ret reply.

(** The [except Exception as e] block of [resolve]. *)
Definition resolve_except (request : DNSRecord.t) (e : Exn) : M DNSRecord.t :=
  logger_error ("Error resolving DNS request: " ++ exn_str e) ;;;
  let error_reply :=
    DNSRecord.init
      (DNSHeader.init (DNSHeader.id (DNSRecord.header request))
         [("qr", 1); ("aa", 1); ("ra", 0); ("rcode", 2)])
      (Some (DNSRecord.get_q request)) in
  ret error_reply.

(** [BlackholeResolver.resolve(request, handler)]; [handler] is not used. *)
Definition resolve (request : DNSRecord.t) : M DNSRecord.t :=
  try_except (resolve_try request) (resolve_except request).

(** A request as a transport builds it: one question, under id [i]. *)
Definition query (i : Z) (name : DNSLabel.t) (qtype : PyVal) : DNSRecord.t :=
  DNSRecord.init (DNSHeader.init i []) (Some (DNSQuestion.mk name qtype 1)).

(** The query's name lies in the zone, as [resolve] decides it. *)
Definition in_zone (request : DNSRecord.t) : bool :=
  _is_valid_domain (domain_str (DNSQuestion.qname (DNSRecord.get_q request))).

(** The type of the query, as the wire gives it. *)
Definition has_qtype (request : DNSRecord.t) (n : Z) : Prop :=
  DNSQuestion.qtype (DNSRecord.get_q request) = PyInt n.

(** The response code, flags and id of a record. *)
Definition rcode (r : DNSRecord.t) : Z := DNSHeader.get_rcode (DNSRecord.header r).
Definition qr (r : DNSRecord.t) : Z := DNSHeader.get_qr (DNSRecord.header r).
Definition aa (r : DNSRecord.t) : Z := DNSHeader.get_aa (DNSRecord.header r).
Definition ra (r : DNSRecord.t) : Z := DNSHeader.get_ra (DNSRecord.header r).
Definition txid (r : DNSRecord.t) : Z := DNSHeader.id (DNSRecord.header r).

(** The zone's SOA record as it appears under owner [owner]. *)
Definition soa_rr (owner : DNSLabel.t) : RR.t :=
  RR.mk owner QTYPE.SOA 1 DNS_TTL SOA_RECORD.

(** The last character of a string, if it has one. *)
Fixpoint last_char (s : string) : option ascii :=
  match s with
  | EmptyString => None
  | String a EmptyString => Some a
  | String _ s' => last_char s'
  end.

(** The header's counts agree with the sections of the record. *)
Definition well_formed (r : DNSRecord.t) : Prop :=
  DNSHeader.q (DNSRecord.header r) = DNSRecord.len (DNSRecord.questions r)
  /\ DNSHeader.a (DNSRecord.header r) = DNSRecord.len (DNSRecord.rr r)
  /\ DNSHeader.auth (DNSRecord.header r) = DNSRecord.len (DNSRecord.auth r)
  /\ DNSHeader.ar (DNSRecord.header r) = DNSRecord.len (DNSRecord.ar r).

(** The mnemonic [QTYPE] gives an integer type code. *)
Definition qt_of (n : Z) : string :=
  match QTYPE.lookup n QTYPE.forward with
  | Some v => v
  | None => "TYPE" ++ PyStr.fmt_d n
  end.

(** *** The classifier as the specification words it

    Kept apart from the code's [domain_str] and [_is_valid_domain], for
    comparison with them. *)
Module Spec.

Definition lower_char (c : ascii) : ascii :=
  if DNSLabel.is_upper c then ascii_of_N (N_of_ascii c + 32) else c.

Fixpoint lower (s : string) : string :=
  match s with
  | EmptyString => EmptyString
  | String a s' => String (lower_char a) (lower s')
  end.

(** One trailing root-label separator is dropped. *)
Definition strip_root (s : string) : string :=
  let n := String.length s in
  if String.eqb (substring (n - 1) 1 s) "." then substring 0 (n - 1) s else s.

Definition normalize (name : string) : string := lower (strip_root name).

Definition inZone (name : string) : bool :=
  let n := normalize name in
  String.eqb n BASE_DOMAIN || PyStr.endswith n ("." ++ BASE_DOMAIN).

End Spec.

(** ** The server

    [dnslib.server.DNSServer] is the collaborator [BlackholeDNSServer] drives.
    Of a server object the model keeps what it was built with and how far its
    life has gone: built (and bound), serving in its thread, or stopped.
    Building a server is taken to succeed: a bind that fails raises out of
    [start], which this model leaves aside. *)
Module DnslibDNSServer.

Inductive Status : Type := Created | Running | Stopped.

Record t : Type := mk {
  address : string;
  port : Z;
  tcp : bool;
  status : Status
}.

Definition with_status (st : Status) (s : t) : t :=
  mk (address s) (port s) (tcp s) st.

End DnslibDNSServer.

(** The server objects of the process, each known by its index in [heap], and
    the lines logged so far. *)
Record World : Type := mkWorld {
  heap : list DnslibDNSServer.t;
  log : list (Level * string)
}.

(** The object at index [h] changes by [f]; an index out of range names no
    object. *)
Fixpoint update (h : nat) (f : DnslibDNSServer.t -> DnslibDNSServer.t)
    (l : list DnslibDNSServer.t) : list DnslibDNSServer.t :=
  match l, h with
  | [], _ => []
  | x :: r, O => f x :: r
  | x :: r, S h' => x :: update h' f r
  end.

(** [logger.info(msg)] *)
Definition log_info (msg : string) (w : World) : World :=
  mkWorld (heap w) (log w ++ [(INFO, msg)])%list.

(** [DnslibDNSServer(resolver=..., address=..., port=..., tcp=...)]: a new
    object, returned by reference. *)
Definition new_server (address : string) (port : Z) (tcp : bool) (w : World)
    : nat * World :=
  (List.length (heap w),
   mkWorld (heap w ++ [DnslibDNSServer.mk address port tcp DnslibDNSServer.Created])%list
           (log w)).

(** [server.start_thread()] *)
Definition start_thread (h : nat) (w : World) : World :=
  mkWorld (update h (DnslibDNSServer.with_status DnslibDNSServer.Running) (heap w))
          (log w).

(** [server.stop()] *)
Definition server_stop (h : nat) (w : World) : World :=
  mkWorld (update h (DnslibDNSServer.with_status DnslibDNSServer.Stopped) (heap w))
          (log w).

(** [BlackholeDNSServer]; its [resolver] has no state and is left out. *)
Module BlackholeDNSServer.

Record t : Type := mk {
  address : string;
  port : Z;
  tcp : bool;
  udp : bool;
  servers : list nat
}.

Definition with_servers (self : t) (l : list nat) : t :=
  mk (address self) (port self) (tcp self) (udp self) l.

(** [__init__(address, port, tcp, udp)] *)
Definition __init__ (address : string) (port : Z) (tcp udp : bool) : t :=
  mk address port tcp udp [].

(** [f"{self.address}:{self.port}"] *)
Definition endpoint (self : t) : string :=
  address self ++ ":" ++ PyStr.fmt_d (port self).

Definition start (self : t) (w : World) : t * World :=
  let w := log_info ("Starting Blackhole DNS server on " ++ endpoint self) w in
  let '(self, w) :=
    if udp self then
      let '(udp_server, w) := new_server (address self) (port self) false w in
      let self := with_servers self (servers self ++ [udp_server])%list in
      let w := start_thread udp_server w in
      (self, log_info ("UDP server started on " ++ endpoint self) w)
    else (self, w) in
  let '(self, w) :=
    if tcp self then
      let '(tcp_server, w) := new_server (address self) (port self) true w in
      let self := with_servers self (servers self ++ [tcp_server])%list in
      let w := start_thread tcp_server w in
      (self, log_info ("TCP server started on " ++ endpoint self) w)
    else (self, w) in
  (self, w).

Definition stop (self : t) (w : World) : t * World :=
  let w := log_info "Stopping Blackhole DNS server" w in
  let w := fold_left (fun w server => server_stop server w) (servers self) w in
  let self := with_servers self [] in
  (self, log_info "Blackhole DNS server stopped" w).

(** The transports [start] serves, in the order it starts them: [false] for
    UDP, [true] for TCP. *)
Definition transports (self : t) : list bool :=
  ((if udp self then [false] else []) ++ (if tcp self then [true] else []))%list.

(** [start] called [n] times in a row. *)
Fixpoint start_n (n : nat) (self : t) (w : World) : t * World :=
  match n with
  | O => (self, w)
  | S n' => let '(self, w) := start self w in start_n n' self w
  end.

End BlackholeDNSServer.

(** A server object once stopped. *)
Definition stopped : DnslibDNSServer.t -> DnslibDNSServer.t :=
  DnslibDNSServer.with_status DnslibDNSServer.Stopped.

(** The server objects one call of [start] creates, already serving. *)
Definition started (self : BlackholeDNSServer.t) : list DnslibDNSServer.t :=
  map (fun t =>
         DnslibDNSServer.mk (BlackholeDNSServer.address self)
           (BlackholeDNSServer.port self) t DnslibDNSServer.Running)
      (BlackholeDNSServer.transports self).

(** A string holds no dot. *)
Definition no_dot (s : string) : bool :=
  DNSLabel.forallb_str (fun c => negb (Ascii.eqb c ".")) s.

(** ** Python strings: facts *)

Section StringFacts.

Lemma substring_all (s : string) : substring 0 (String.length s) s = s.
Proof. induction s as [|a s IH]; simpl; [reflexivity | now rewrite IH]. Qed.

Lemma substring_skip (p s : string) (m : nat) :
  substring (String.length p) m (p ++ s) = substring 0 m s.
Proof. induction p as [|a p IH]; simpl; [reflexivity | exact IH]. Qed.

Lemma length_app (p s : string) :
  String.length (p ++ s) = (String.length p + String.length s)%nat.
Proof. induction p as [|a p IH]; simpl; [reflexivity | now rewrite IH]. Qed.

Lemma substring_cut (s : string) (k : nat) :
  (k <= String.length s)%nat ->
  s = substring 0 k s ++ substring k (String.length s - k) s.
Proof.
  revert k. induction s as [|a s IH]; intros k Hk.
  - destruct k; reflexivity.
  - destruct k as [|k]; simpl.
    + now rewrite substring_all.
    + simpl in Hk. f_equal. apply IH. lia.
Qed.

(** [endswith] holds exactly of the strings that have the suffix. *)
Lemma endswith_spec (s suffix : string) :
  PyStr.endswith s suffix = true <-> exists p, s = p ++ suffix.
Proof.
  unfold PyStr.endswith. split.
  - destruct (Nat.leb_spec (String.length suffix) (String.length s)) as [Hle|Hlt];
      [|discriminate].
    intros H. apply String.eqb_eq in H.
    exists (substring 0 (String.length s - String.length suffix) s).
    pose proof (substring_cut s (String.length s - String.length suffix)) as Hc.
    replace (String.length s - (String.length s - String.length suffix))%nat
      with (String.length suffix) in Hc by lia.
    rewrite H in Hc. apply Hc. lia.
  - intros [p ->]. rewrite length_app.
    destruct (Nat.leb_spec (String.length suffix)
                (String.length p + String.length suffix)) as [_|Hlt]; [|lia].
    replace (String.length p + String.length suffix - String.length suffix)%nat
      with (String.length p) by lia.
    rewrite substring_skip, substring_all. apply String.eqb_refl.
Qed.



End StringFacts.

(** ** The type table *)

Lemma getitem_int (n : Z) : QTYPE.getitem (PyInt n) = ret (qt_of n).
Proof.
  unfold QTYPE.getitem, qt_of.
  destruct (QTYPE.lookup n QTYPE.forward); reflexivity.
Qed.

Lemma getitem_not_int (k : PyVal) :
  (forall n, k <> PyInt n) -> exists e, QTYPE.getitem k = raise e.
Proof.
  intros H. destruct k as [n| |]; [now elim (H n) | |]; eexists; reflexivity.
Qed.

Ltac split_keys n :=
  repeat match goal with
         | |- context [Z.eqb n ?k] => destruct (Z.eqb_spec n k) as [->|]
         end.

(** Only code 6 reads as [SOA], only code 2 as [NS]. *)
Lemma qt_of_SOA (n : Z) : String.eqb (qt_of n) "SOA" = (n =? 6).
Proof.
  unfold qt_of, QTYPE.forward, QTYPE.lookup.
  destruct (Z.eqb_spec n 6) as [->|Hn]; [reflexivity|].
  split_keys n; reflexivity.
Qed.

Lemma qt_of_NS (n : Z) : String.eqb (qt_of n) "NS" = (n =? 2).
Proof.
  unfold qt_of, QTYPE.forward, QTYPE.lookup.
  destruct (Z.eqb_spec n 2) as [->|Hn]; [reflexivity|].
  split_keys n; reflexivity.
Qed.

Example QTYPE_SOA_reverse : QTYPE.rlookup "SOA" QTYPE.forward = Some QTYPE.SOA.
Proof. reflexivity. Qed.

Example QTYPE_NS_reverse : QTYPE.rlookup "NS" QTYPE.forward = Some QTYPE.NS.
Proof. reflexivity. Qed.

(** ** The zone predicate *)

Lemma _is_valid_domain_spec (d : string) :
  _is_valid_domain d = true <->
  d = BASE_DOMAIN \/ exists p, d = p ++ "." ++ BASE_DOMAIN.
Proof.
  unfold _is_valid_domain. rewrite orb_true_iff, String.eqb_eq, endswith_spec.
  reflexivity.
Qed.

(** ** The resolver, path by path *)

Section Paths.

Variable request : DNSRecord.t.

Lemma resolve_try_int (n : Z) :
  has_qtype request n ->
  snd (resolve_try request) =
  let qname := DNSQuestion.qname (DNSRecord.get_q request) in
  let reply :=
    DNSRecord.init
      (DNSHeader.init (DNSHeader.id (DNSRecord.header request))
         [("qr", 1); ("aa", 1); ("ra", 0)])
      (Some (DNSRecord.get_q request)) in
  let reply := if negb (n =? 6) then _add_soa_to_authority reply else reply in
  if (n =? 6) && in_zone request then inr (_handle_soa_query reply qname)
  else if (n =? 2) && in_zone request then inr (_handle_ns_query reply qname)
  else inr (DNSRecord.set_rcode reply 3).
Proof.
  intros H. unfold resolve_try, in_zone. rewrite H, getitem_int.
  unfold bind, ret, logger_info. cbv zeta.
  rewrite qt_of_SOA, qt_of_NS.
  destruct (n =? 6); destruct (n =? 2);
    destruct (_is_valid_domain _); reflexivity.
Qed.

Lemma resolve_try_fault :
  (forall n, ~ has_qtype request n) ->
  exists l e, resolve_try request = (l, inl e).
Proof.
  intros H. destruct (getitem_not_int _ H) as [e He].
  exists [], e. unfold resolve_try. rewrite He. reflexivity.
Qed.

Lemma resolve_try_fault_inv (l : list (Level * string)) (e : Exn) :
  resolve_try request = (l, inl e) -> forall n, ~ has_qtype request n.
Proof.
  intros H n Hn. pose proof (resolve_try_int n Hn) as Hs.
  rewrite H in Hs. simpl in Hs.
  destruct (n =? 6), (n =? 2), (in_zone request); discriminate.
Qed.

(** A result of the [try] block is the result of [resolve]. *)
Lemma resolve_ok (reply : DNSRecord.t) :
  snd (resolve_try request) = inr reply -> snd (resolve request) = inr reply.
Proof.
  unfold resolve, try_except. destruct (resolve_try request) as [l [e|x]]; simpl.
  - discriminate.
  - trivial.
Qed.

(** A fault of the [try] block is answered with the SERVFAIL reply. *)
Lemma resolve_fault (l : list (Level * string)) (e : Exn) :
  resolve_try request = (l, inl e) ->
  snd (resolve request) =
  inr (DNSRecord.init
         (DNSHeader.init (DNSHeader.id (DNSRecord.header request))
            [("qr", 1); ("aa", 1); ("ra", 0); ("rcode", 2)])
         (Some (DNSRecord.get_q request))).
Proof.
  intros H. unfold resolve, try_except. rewrite H. reflexivity.
Qed.

End Paths.

(** [_handle_ns_query] appends one NS record per configured name, in order. *)
Lemma ns_answers (records : list RD) (qname : DNSLabel.t) (reply : DNSRecord.t) :
  DNSRecord.rr
    (fold_left
       (fun reply ns_record =>
          DNSRecord.add_answer reply (RR.mk qname QTYPE.NS 1 DNS_TTL ns_record))
       records reply)
  = (DNSRecord.rr reply
     ++ map (fun ns_record => RR.mk qname QTYPE.NS 1 DNS_TTL ns_record) records)%list.
Proof.
  revert reply. induction records as [|x records IH]; intros reply; simpl.
  - now rewrite app_nil_r.
  - rewrite IH. simpl. now rewrite <- app_assoc.
Qed.

(** ** Answers inside the zone *)

(** C5, as the code has it. A query of type SOA whose name, with the trailing
    dots stripped and its letter case kept, equals the authoritative domain or
    ends with a dot followed by it is answered NOERROR, with exactly one
    answer record: the configured SOA (serial 202502191, refresh 7200, retry
    900, expire 1209600, minimum 86400) under ttl [DNS_TTL], owned by the name
    as it was queried, whose text without the trailing dots is that normalized
    name; the authority section is empty. *)
Theorem resolve_soa_in_zone (request : DNSRecord.t) :
  let qname := DNSQuestion.qname (DNSRecord.get_q request) in
  has_qtype request QTYPE.SOA ->
  (domain_str qname = BASE_DOMAIN
   \/ exists p, domain_str qname = p ++ "." ++ BASE_DOMAIN) ->
  exists reply answer mname rname,
    snd (resolve request) = inr reply
    /\ rcode reply = NOERROR
    /\ DNSRecord.rr reply = [answer]
    /\ RR.rtype answer = QTYPE.SOA
    /\ RR.ttl answer = DNS_TTL
    /\ RR.rdata answer = SOA mname rname (202502191, 7200, 900, 1209600, 86400)
    /\ RR.rdata answer = SOA_RECORD
    /\ RR.rname answer = qname
    /\ PyStr.rstrip "." (DNSLabel.str (RR.rname answer)) = domain_str qname
    /\ DNSRecord.auth reply = [].
Proof.
  intros qname Ht Hz. apply _is_valid_domain_spec in Hz.
  pose proof (resolve_try_int request _ Ht) as Hs.
  unfold in_zone in Hs. fold qname in Hs. rewrite Hz in Hs. simpl in Hs.
  apply resolve_ok in Hs.
  eexists; exists (soa_rr qname); do 2 eexists.
  split; [exact Hs|]. repeat split.
Qed.

Lemma resolve_soa_in_zone_witness :
  exists reply answer mname rname,
    snd (resolve (query 4660 ["www"; "romulan"; "zone"] (PyInt 6))) = inr reply
    /\ rcode reply = NOERROR
    /\ DNSRecord.rr reply = [answer]
    /\ RR.rtype answer = QTYPE.SOA
    /\ RR.ttl answer = DNS_TTL
    /\ RR.rdata answer = SOA mname rname (202502191, 7200, 900, 1209600, 86400)
    /\ RR.rdata answer = SOA_RECORD
    /\ RR.rname answer = ["www"; "romulan"; "zone"]
    /\ PyStr.rstrip "." (DNSLabel.str (RR.rname answer))
       = domain_str ["www"; "romulan"; "zone"]
    /\ DNSRecord.auth reply = [].
Proof.
  apply (resolve_soa_in_zone (query 4660 ["www"; "romulan"; "zone"] (PyInt 6))).
  - reflexivity.
  - right. exists "www". reflexivity.
Defined.

(** C5, as the specification words it, fails: an upper-case spelling of the
    authoritative domain equals it once lower-cased, and a query of type SOA
    for it is answered NXDOMAIN with no answer. *)
Lemma resolve_soa_upper_case :
  let qname := ["ROMULAN"; "ZONE"] in
  let request := query 4660 qname (PyInt 6) in
  has_qtype request QTYPE.SOA
  /\ Spec.normalize (DNSLabel.str qname) = BASE_DOMAIN
  /\ Spec.inZone (DNSLabel.str qname) = true
  /\ exists reply,
       snd (resolve request) = inr reply
       /\ rcode reply = NXDOMAIN
       /\ DNSRecord.rr reply = [].
Proof.
  cbv zeta. split; [reflexivity|]. split; [reflexivity|]. split; [reflexivity|].
  eexists. repeat split.
Qed.

(** C6. A query whose name is in the zone and whose type is neither SOA nor
    NS is answered NXDOMAIN, with no answer and with the zone's SOA record as
    the authority section. *)
Theorem resolve_other_in_zone (request : DNSRecord.t) (n : Z) :
  has_qtype request n ->
  n <> QTYPE.SOA ->
  n <> QTYPE.NS ->
  in_zone request = true ->
  exists reply,
    snd (resolve request) = inr reply
    /\ rcode reply = NXDOMAIN
    /\ DNSRecord.rr reply = []
    /\ DNSRecord.auth reply = [soa_rr (DNSLabel.of_text BASE_DOMAIN)].
Proof.
  intros Ht Hsoa Hns Hz.
  pose proof (resolve_try_int request n Ht) as Hs.
  apply Z.eqb_neq in Hsoa, Hns. unfold QTYPE.SOA, QTYPE.NS in *.
  rewrite Hsoa, Hns in Hs. simpl in Hs.
  apply resolve_ok in Hs.
  eexists. split; [exact Hs|]. repeat split.
Qed.

Lemma resolve_other_in_zone_witness :
  exists reply,
    snd (resolve (query 4660 ["foo"; "romulan"; "zone"] (PyInt 28))) = inr reply
    /\ rcode reply = NXDOMAIN
    /\ DNSRecord.rr reply = []
    /\ DNSRecord.auth reply = [soa_rr (DNSLabel.of_text BASE_DOMAIN)].
Proof.
  apply (resolve_other_in_zone (query 4660 ["foo"; "romulan"; "zone"] (PyInt 28)) 28).
  - reflexivity.
  - unfold QTYPE.SOA. lia.
  - unfold QTYPE.NS. lia.
  - reflexivity.
Defined.

(** C2, as the code has it. A query of type NS whose name, with the trailing
    dots stripped and its letter case kept, equals the authoritative domain or
    ends with a dot followed by it is answered NOERROR, with one NS answer per
    configured name server, in configuration order and under ttl [DNS_TTL]. *)
Theorem resolve_ns_answers (request : DNSRecord.t) :
  let qname := DNSQuestion.qname (DNSRecord.get_q request) in
  has_qtype request QTYPE.NS ->
  (domain_str qname = BASE_DOMAIN
   \/ exists p, domain_str qname = p ++ "." ++ BASE_DOMAIN) ->
  exists reply,
    snd (resolve request) = inr reply
    /\ rcode reply = NOERROR
    /\ DNSRecord.rr reply
       = map (fun ns_record => RR.mk qname QTYPE.NS 1 DNS_TTL ns_record) NS_RECORDS.
Proof.
  intros qname Ht Hz. apply _is_valid_domain_spec in Hz.
  pose proof (resolve_try_int request _ Ht) as Hs.
  unfold in_zone in Hs. fold qname in Hs. rewrite Hz in Hs. simpl in Hs.
  apply resolve_ok in Hs.
  eexists. split; [exact Hs|]. split; [reflexivity|].
  unfold _handle_ns_query. rewrite ns_answers. reflexivity.
Qed.

Lemma resolve_ns_answers_witness :
  exists reply,
    snd (resolve (query 4660 ["ns1"; "romulan"; "zone"] (PyInt 2))) = inr reply
    /\ rcode reply = NOERROR
    /\ DNSRecord.rr reply
       = map (fun ns_record =>
                RR.mk ["ns1"; "romulan"; "zone"] QTYPE.NS 1 DNS_TTL ns_record)
           NS_RECORDS.
Proof.
  apply (resolve_ns_answers (query 4660 ["ns1"; "romulan"; "zone"] (PyInt 2))).
  - reflexivity.
  - right. exists "ns1". reflexivity.
Defined.

(** C2, as the specification words it, fails: an upper-case spelling of the
    authoritative domain equals it once lower-cased, and a query of type NS
    for it is answered NXDOMAIN with no answer. *)
Lemma resolve_ns_upper_case :
  let qname := ["ROMULAN"; "ZONE"] in
  let request := query 4660 qname (PyInt 2) in
  has_qtype request QTYPE.NS
  /\ Spec.normalize (DNSLabel.str qname) = BASE_DOMAIN
  /\ Spec.inZone (DNSLabel.str qname) = true
  /\ exists reply,
       snd (resolve request) = inr reply
       /\ rcode reply = NXDOMAIN
       /\ DNSRecord.rr reply = [].
Proof.
  cbv zeta. split; [reflexivity|]. split; [reflexivity|]. split; [reflexivity|].
  eexists. repeat split.
Qed.

(** The answer to an NS query for a name of the zone carries the zone's SOA
    record in its authority section: the test of the type that decides the
    authority section comes before the zone is looked at. *)
Lemma resolve_ns_in_zone (request : DNSRecord.t) :
  let qname := DNSQuestion.qname (DNSRecord.get_q request) in
  has_qtype request QTYPE.NS ->
  in_zone request = true ->
  exists reply,
    snd (resolve request) = inr reply
    /\ rcode reply = NOERROR
    /\ DNSRecord.rr reply
       = map (fun ns_record => RR.mk qname QTYPE.NS 1 DNS_TTL ns_record) NS_RECORDS
    /\ DNSRecord.auth reply = [soa_rr (DNSLabel.of_text BASE_DOMAIN)].
Proof.
  intros qname Ht Hz.
  pose proof (resolve_try_int request _ Ht) as Hs.
  rewrite Hz in Hs. simpl in Hs. apply resolve_ok in Hs.
  eexists. split; [exact Hs|]. split; [reflexivity|]. split.
  - unfold _handle_ns_query. rewrite ns_answers. reflexivity.
  - reflexivity.
Qed.

Example resolve_ns_in_zone_authority :
  let request := query 4660 ["romulan"; "zone"] (PyInt 2) in
  has_qtype request QTYPE.NS
  /\ in_zone request = true
  /\ exists reply,
       snd (resolve request) = inr reply
       /\ rcode reply = NOERROR
       /\ DNSRecord.auth reply = [soa_rr (DNSLabel.of_text BASE_DOMAIN)].
Proof.
  cbv zeta. split; [reflexivity|]. split; [reflexivity|].
  eexists. split; [reflexivity|]. split; reflexivity.
Qed.

(** ** Names outside the zone *)

(** C1 at a query of type SOA for a name outside the zone: the response is
    NXDOMAIN with no answer, and its authority section is empty where the
    zone's SOA record is due. *)
Theorem resolve_soa_out_of_zone :
  let request := query 4660 ["evil"; "com"] (PyInt 6) in
  has_qtype request QTYPE.SOA
  /\ in_zone request = false
  /\ exists reply,
       snd (resolve request) = inr reply
       /\ rcode reply = NXDOMAIN
       /\ DNSRecord.rr reply = []
       /\ DNSRecord.auth reply = [].
Proof.
  cbv zeta. split; [reflexivity|]. split; [reflexivity|].
  eexists. repeat split.
Qed.

(** For every other type, a name outside the zone gets the negative answer
    with the zone's SOA record as authority. *)
Lemma resolve_out_of_zone (request : DNSRecord.t) (n : Z) :
  has_qtype request n ->
  n <> QTYPE.SOA ->
  in_zone request = false ->
  exists reply,
    snd (resolve request) = inr reply
    /\ rcode reply = NXDOMAIN
    /\ DNSRecord.rr reply = []
    /\ DNSRecord.auth reply = [soa_rr (DNSLabel.of_text BASE_DOMAIN)].
Proof.
  intros Ht Hsoa Hz.
  pose proof (resolve_try_int request n Ht) as Hs.
  apply Z.eqb_neq in Hsoa. unfold QTYPE.SOA in *.
  rewrite Hsoa, Hz in Hs. simpl in Hs. rewrite andb_false_r in Hs.
  apply resolve_ok in Hs.
  eexists. split; [exact Hs|]. repeat split.
Qed.

(** ** The entry point *)

(** C7. Whatever the query and whatever the disposition, [resolve] returns a
    response that carries the request's transaction id and the flags qr = 1,
    aa = 1 and ra = 0; its response code is NOERROR, NXDOMAIN or SERVFAIL. *)
Theorem resolve_header (request : DNSRecord.t) :
  exists reply,
    snd (resolve request) = inr reply
    /\ txid reply = txid request
    /\ qr reply = 1
    /\ aa reply = 1
    /\ ra reply = 0
    /\ (rcode reply = NOERROR \/ rcode reply = NXDOMAIN \/ rcode reply = SERVFAIL).
Proof.
  destruct (DNSQuestion.qtype (DNSRecord.get_q request)) as [n| |] eqn:Ht.
  - pose proof (resolve_try_int request n Ht) as Hs. cbv zeta in Hs.
    destruct (n =? 6), (n =? 2), (in_zone request); simpl in Hs;
      apply resolve_ok in Hs; eexists; (split; [exact Hs|]);
      repeat split; (left; reflexivity) || (right; left; reflexivity).
  - destruct (resolve_try_fault request) as (l & e & Hf).
    { intros n Hn. unfold has_qtype in Hn. congruence. }
    apply resolve_fault in Hf. eexists. split; [exact Hf|].
    repeat split. right; right; reflexivity.
  - destruct (resolve_try_fault request) as (l & e & Hf).
    { intros n Hn. unfold has_qtype in Hn. congruence. }
    apply resolve_fault in Hf. eexists. split; [exact Hf|].
    repeat split. right; right; reflexivity.
Qed.

(** C3. [resolve] returns a response for every request; when the [try] block
    raises, that response is well formed, carries the request's transaction
    id and the flags qr = 1, aa = 1, ra = 0, has response code SERVFAIL and
    has empty answer and authority sections. *)
Theorem resolve_never_raises (request : DNSRecord.t) :
  exists log reply,
    resolve request = (log, inr reply)
    /\ (forall l e,
          resolve_try request = (l, inl e) ->
          well_formed reply
          /\ txid reply = txid request
          /\ qr reply = 1
          /\ aa reply = 1
          /\ ra reply = 0
          /\ rcode reply = SERVFAIL
          /\ DNSRecord.rr reply = []
          /\ DNSRecord.auth reply = []).
Proof.
  unfold resolve, try_except.
  destruct (resolve_try request) as [l0 [e0|x]].
  - simpl. do 2 eexists. split; [reflexivity|].
    intros _ _ _. repeat split.
  - do 2 eexists. split; [reflexivity|]. intros l e H. discriminate.
Qed.

(** The failure path is taken: a question whose type is not an integer makes
    the type lookup raise, and the reply is the SERVFAIL one. *)
Lemma resolve_never_raises_witness :
  let request := query 4660 ["romulan"; "zone"] PyNone in
  exists l e,
    resolve_try request = (l, inl e)
    /\ exists log reply,
         resolve request = (log, inr reply)
         /\ well_formed reply
         /\ txid reply = 4660
         /\ qr reply = 1
         /\ aa reply = 1
         /\ ra reply = 0
         /\ rcode reply = SERVFAIL
         /\ DNSRecord.rr reply = []
         /\ DNSRecord.auth reply = [].
Proof.
  cbv zeta.
  destruct (resolve_never_raises (query 4660 ["romulan"; "zone"] PyNone))
    as (log & reply & Hr & Hf).
  do 2 eexists. split; [reflexivity|].
  exists log, reply. split; [exact Hr|].
  exact (Hf _ _ eq_refl).
Defined.

(** C10, as the code has it. On the failure path the SERVFAIL response
    carries, beside the transaction id and the flags, exactly one question:
    [request.q], the first question of the request.  Its question section is
    the request's whenever the request asks one question. *)
Theorem resolve_fault_echo (request : DNSRecord.t)
    (l : list (Level * string)) (e : Exn) :
  resolve_try request = (l, inl e) ->
  exists reply,
    snd (resolve request) = inr reply
    /\ rcode reply = SERVFAIL
    /\ txid reply = txid request
    /\ DNSRecord.questions reply = [DNSRecord.get_q request]
    /\ (forall q, DNSRecord.questions request = [q] ->
                  DNSRecord.questions reply = DNSRecord.questions request).
Proof.
  intros H. apply resolve_fault in H. eexists. split; [exact H|].
  split; [reflexivity|]. split; [reflexivity|]. split; [reflexivity|].
  intros q Hq. simpl. unfold DNSRecord.get_q. rewrite Hq. reflexivity.
Qed.

Lemma resolve_fault_echo_witness :
  let request := query 4660 ["romulan"; "zone"] (PyString "SOA") in
  exists reply,
    snd (resolve request) = inr reply
    /\ rcode reply = SERVFAIL
    /\ txid reply = txid request
    /\ DNSRecord.questions reply = [DNSRecord.get_q request]
    /\ (forall q, DNSRecord.questions request = [q] ->
                  DNSRecord.questions reply = DNSRecord.questions request).
Proof.
  cbv zeta.
  apply (resolve_fault_echo
           (query 4660 ["romulan"; "zone"] (PyString "SOA"))
           [] (DNSError "QTYPE: Invalid forward lookup: [SOA]")).
  reflexivity.
Defined.

(** C10, as the specification words it, fails: a request with two questions
    whose first makes the lookup raise gets a SERVFAIL response with that
    first question only, not the request's question section. *)
Lemma resolve_fault_question_dropped :
  let request :=
    DNSRecord.mk (DNSHeader.init 4660 [])
      [ DNSQuestion.mk ["romulan"; "zone"] PyNone 1;
        DNSQuestion.mk ["evil"; "com"] (PyInt 1) 1 ]
      [] [] [] in
  exists l e reply,
    resolve_try request = (l, inl e)
    /\ snd (resolve request) = inr reply
    /\ rcode reply = SERVFAIL
    /\ DNSRecord.questions reply = [DNSQuestion.mk ["romulan"; "zone"] PyNone 1]
    /\ DNSRecord.questions reply <> DNSRecord.questions request.
Proof.
  cbv zeta. do 3 eexists. split; [reflexivity|]. split; [reflexivity|].
  split; [reflexivity|]. split; [reflexivity|]. discriminate.
Qed.

(** C9. Two requests that carry the same question get the same log lines and
    the same response, but for the transaction id, which each response takes
    from its own request. *)
Theorem resolve_deterministic (r1 r2 : DNSRecord.t) :
  DNSRecord.get_q r1 = DNSRecord.get_q r2 ->
  fst (resolve r1) = fst (resolve r2)
  /\ exists reply1 reply2,
       snd (resolve r1) = inr reply1
       /\ snd (resolve r2) = inr reply2
       /\ txid reply1 = txid r1
       /\ txid reply2 = txid r2
       /\ reply2 = DNSRecord.with_id reply1 (txid r2).
Proof.
  intros Hq. unfold resolve, resolve_try, resolve_except, try_except.
  rewrite Hq.
  destruct (QTYPE.getitem (DNSQuestion.qtype (DNSRecord.get_q r2)))
    as [l [e|qt]]; simpl.
  - split; [reflexivity|]. do 2 eexists. repeat split.
  - destruct (String.eqb qt "SOA"), (String.eqb qt "NS"),
      (_is_valid_domain (domain_str (DNSQuestion.qname (DNSRecord.get_q r2))));
      simpl; (split; [reflexivity|]); do 2 eexists; repeat split.
Qed.

Lemma resolve_deterministic_witness :
  let r1 := query 4660 ["romulan"; "zone"] (PyInt 6) in
  let r2 := query 22136 ["romulan"; "zone"] (PyInt 6) in
  fst (resolve r1) = fst (resolve r2)
  /\ exists reply1 reply2,
       snd (resolve r1) = inr reply1
       /\ snd (resolve r2) = inr reply2
       /\ txid reply1 = 4660
       /\ txid reply2 = 22136
       /\ reply2 = DNSRecord.with_id reply1 22136.
Proof.
  cbv zeta.
  apply (resolve_deterministic
           (query 4660 ["romulan"; "zone"] (PyInt 6))
           (query 22136 ["romulan"; "zone"] (PyInt 6))).
  reflexivity.
Defined.

(** C8. For a parsed query, whose type is an integer, exactly one of the
    three states applies: SOA in the zone, NS in the zone, or the negative
    one.  The [try] block then returns a response and does not raise; that
    response is the one [resolve] returns, its code follows the state, and
    beside it the block leaves only informational log lines. *)
Theorem resolve_total (request : DNSRecord.t) (n : Z) :
  has_qtype request n ->
  let soa_in_zone := n = QTYPE.SOA /\ in_zone request = true in
  let ns_in_zone := n = QTYPE.NS /\ in_zone request = true in
  let negative := ~ soa_in_zone /\ ~ ns_in_zone in
  ((soa_in_zone /\ ~ ns_in_zone /\ ~ negative)
   \/ (ns_in_zone /\ ~ soa_in_zone /\ ~ negative)
   \/ (negative /\ ~ soa_in_zone /\ ~ ns_in_zone))
  /\ exists log reply,
       resolve_try request = (log, inr reply)
       /\ resolve request = (log, inr reply)
       /\ Forall (fun line => fst line = INFO) log
       /\ (soa_in_zone -> rcode reply = NOERROR /\ DNSRecord.rr reply <> [])
       /\ (ns_in_zone -> rcode reply = NOERROR /\ DNSRecord.rr reply <> [])
       /\ (negative -> rcode reply = NXDOMAIN /\ DNSRecord.rr reply = []).
Proof.
  intros Ht. cbv zeta. unfold QTYPE.SOA, QTYPE.NS. split.
  - destruct (Z.eq_dec n 6) as [->|H6];
      [|destruct (Z.eq_dec n 2) as [->|H2]];
      destruct (in_zone request); intuition (discriminate || lia).
  - unfold resolve, try_except, resolve_try.
    rewrite Ht, getitem_int. unfold bind, ret, logger_info.
    fold (in_zone request). rewrite qt_of_SOA, qt_of_NS.
    destruct (Z.eqb_spec n 6) as [->|H6];
      [|destruct (Z.eqb_spec n 2) as [->|H2]];
      destruct (in_zone request); simpl;
      do 2 eexists; (split; [reflexivity|]); (split; [reflexivity|]);
      (split; [repeat constructor|]);
      repeat split; intros; try discriminate; intuition (discriminate || lia).
Qed.

Lemma resolve_total_witness :
  let request := query 4660 ["foo"; "romulan"; "zone"] (PyInt 16) in
  let soa_in_zone := 16 = QTYPE.SOA /\ in_zone request = true in
  let ns_in_zone := 16 = QTYPE.NS /\ in_zone request = true in
  let negative := ~ soa_in_zone /\ ~ ns_in_zone in
  ((soa_in_zone /\ ~ ns_in_zone /\ ~ negative)
   \/ (ns_in_zone /\ ~ soa_in_zone /\ ~ negative)
   \/ (negative /\ ~ soa_in_zone /\ ~ ns_in_zone))
  /\ exists log reply,
       resolve_try request = (log, inr reply)
       /\ resolve request = (log, inr reply)
       /\ Forall (fun line => fst line = INFO) log
       /\ (soa_in_zone -> rcode reply = NOERROR /\ DNSRecord.rr reply <> [])
       /\ (ns_in_zone -> rcode reply = NOERROR /\ DNSRecord.rr reply <> [])
       /\ (negative -> rcode reply = NXDOMAIN /\ DNSRecord.rr reply = []).
Proof.
  cbv zeta.
  apply (resolve_total (query 4660 ["foo"; "romulan"; "zone"] (PyInt 16)) 16).
  reflexivity.
Defined.

(** ** The classifier *)

Section Normalization.

Lemma last_char_None (s : string) : last_char s = None -> s = EmptyString.
Proof.
  induction s as [|a s IH]; [reflexivity|]. simpl.
  destruct s; [discriminate|]. intros H. apply IH in H. discriminate.
Qed.

Lemma last_char_app (s1 s2 : string) :
  s2 <> EmptyString -> last_char (s1 ++ s2) = last_char s2.
Proof.
  intros H. induction s1 as [|a s1 IH]; simpl; [reflexivity|].
  rewrite <- IH. destruct (s1 ++ s2) eqn:E; [|reflexivity].
  destruct s1; simpl in E; [congruence | discriminate].
Qed.

Lemma last_char_snoc (p : string) (c : ascii) :
  last_char (p ++ String c EmptyString) = Some c.
Proof. rewrite last_char_app; [reflexivity | discriminate]. Qed.

Lemma last_char_forallb (f : ascii -> bool) (s : string) (c : ascii) :
  DNSLabel.forallb_str f s = true -> last_char s = Some c -> f c = true.
Proof.
  induction s as [|a s IH]; simpl; [discriminate|].
  intros H. apply andb_true_iff in H as [Ha Hs].
  destruct s; [intros [= <-]; exact Ha | exact (IH Hs)].
Qed.

(** No character but the dot reads as a text that ends with a dot. *)
Lemma decode_char_end (a : ascii) :
  a <> "."%char ->
  exists c,
    last_char (if DNSLabel.LDH a then String a EmptyString else DNSLabel.escape a)
    = Some c
    /\ c <> "."%char.
Proof.
  intros Ha.
  destruct a as [[] [] [] [] [] [] [] []];
    try (eexists; split; [reflexivity | discriminate]).
  elim Ha. reflexivity.
Qed.

Lemma append_empty_r (s : string) : s ++ EmptyString = s.
Proof. induction s as [|a s IH]; simpl; [reflexivity | now rewrite IH]. Qed.

Lemma concat_map_last (f : ascii -> string) (s : string) (c0 : ascii) :
  (forall a, f a <> EmptyString) ->
  last_char s = Some c0 ->
  last_char (DNSLabel.concat_map f s) = last_char (f c0).
Proof.
  intros Hf. induction s as [|a s IH]; intros Hs; [discriminate|]. simpl.
  destruct s as [|b s].
  - simpl in *. injection Hs as ->. now rewrite append_empty_r.
  - specialize (IH Hs). rewrite last_char_app; [exact IH|].
    intros E. rewrite E in IH. symmetry in IH.
    apply last_char_None in IH. exact (Hf c0 IH).
Qed.

(** The text of a label that does not end with a dot does not end with one. *)
Lemma decode_end (s : string) (c0 : ascii) :
  last_char s = Some c0 ->
  c0 <> "."%char ->
  exists c, last_char (DNSLabel._decode s) = Some c /\ c <> "."%char.
Proof.
  intros Hs Hc0. unfold DNSLabel._decode.
  destruct (DNSLabel.forallb_str DNSLabel.LDH s).
  - exists c0. split; [exact Hs | exact Hc0].
  - rewrite (concat_map_last _ s c0); [apply decode_char_end; exact Hc0 | | exact Hs].
    intros a. destruct (DNSLabel.LDH a); discriminate.
Qed.


Lemma join_end (parts : list string) :
  parts <> [] ->
  Forall (fun p => exists c, last_char p = Some c /\ c <> "."%char) parts ->
  exists c, last_char (PyStr.join "." parts) = Some c /\ c <> "."%char.
Proof.
  induction parts as [|p ps IH]; intros Hne Hall; [congruence|].
  inversion Hall as [|? ? Hp Hps]; subst.
  destruct ps as [|p' ps]; [exact Hp|].
  destruct IH as (c & Hc & Hd); [discriminate | exact Hps |].
  exists c. split; [|exact Hd].
  change (PyStr.join "." (p :: p' :: ps))
    with (p ++ "." ++ PyStr.join "." (p' :: ps)).
  rewrite last_char_app; [|discriminate].
  rewrite last_char_app; [exact Hc|].
  intros E. rewrite E in Hc. discriminate.
Qed.

Lemma rstrip_snoc (c : ascii) (s : string) :
  last_char s <> Some c ->
  PyStr.rstrip c (s ++ String c EmptyString) = s.
Proof.
  induction s as [|a s IH]; intros H; simpl.
  - now rewrite Ascii.eqb_refl.
  - destruct s as [|b s].
    + simpl in *. rewrite Ascii.eqb_refl.
      destruct (Ascii.eqb_spec a c); [congruence | reflexivity].
    + rewrite IH by exact H. reflexivity.
Qed.



End Normalization.




(** ** The response on every path *)

Ltac eqb_facts :=
  repeat match goal with
         | H : (_ =? _) = true |- _ => apply Z.eqb_eq in H
         | H : (_ =? _) = false |- _ => apply Z.eqb_neq in H
         end.

(** Every path of [resolve] at once: the branches of the [try] block with
    their conditions, and the [except] block. *)
Ltac resolve_paths request :=
  let n := fresh "n" in
  let Ht := fresh "Ht" in
  let Hs := fresh "Hs" in
  let E6 := fresh "E6" in
  let E2 := fresh "E2" in
  let Hz := fresh "Hz" in
  destruct (DNSQuestion.qtype (DNSRecord.get_q request)) as [n| |] eqn:Ht;
  [ pose proof (resolve_try_int request n Ht) as Hs; cbv zeta in Hs;
    destruct (n =? 6) eqn:E6; destruct (n =? 2) eqn:E2;
    destruct (in_zone request) eqn:Hz; simpl in Hs; apply resolve_ok in Hs;
    eqb_facts; try (exfalso; lia)
  | destruct (resolve_try_fault request) as (? & ? & Hs);
    [ intros n Hn; unfold has_qtype in Hn; congruence
    | apply resolve_fault in Hs ]
  | destruct (resolve_try_fault request) as (? & ? & Hs);
    [ intros n Hn; unfold has_qtype in Hn; congruence
    | apply resolve_fault in Hs ] ].

Ltac eval_rcode :=
  match goal with
  | |- context [rcode ?r] =>
      let k := eval vm_compute in (rcode r) in
      change (rcode r) with k
  end.

Lemma qt_of_SOA_iff (n : Z) : qt_of n = "SOA" <-> n = 6.
Proof. rewrite <- String.eqb_eq, qt_of_SOA. apply Z.eqb_eq. Qed.

Lemma qt_of_NS_iff (n : Z) : qt_of n = "NS" <-> n = 2.
Proof. rewrite <- String.eqb_eq, qt_of_NS. apply Z.eqb_eq. Qed.

(** A response has answers exactly when its code is NOERROR, and that is
    exactly when the question's type reads as SOA or NS in [QTYPE] and its
    name passes the zone test; its code is SERVFAIL exactly when the type
    lookup raises. *)
Theorem resolve_answers_iff_noerror (request : DNSRecord.t) :
  let qtype := DNSQuestion.qtype (DNSRecord.get_q request) in
  exists reply,
    snd (resolve request) = inr reply
    /\ (DNSRecord.rr reply <> [] <-> rcode reply = NOERROR)
    /\ (rcode reply = NOERROR <->
        exists qt, QTYPE.getitem qtype = ret qt
                   /\ (qt = "SOA" \/ qt = "NS")
                   /\ in_zone request = true)
    /\ (rcode reply = SERVFAIL <-> exists e, QTYPE.getitem qtype = raise e).
Proof.
  cbv zeta. unfold NOERROR, SERVFAIL.
  resolve_paths request; (eexists; split; [exact Hs|]);
    rewrite ?getitem_int; repeat eval_rcode; simpl DNSRecord.rr.
  all: split;
    [ split; intros H; try reflexivity; try discriminate;
      try (exfalso; apply H; reflexivity) |].
  all: split.
  all: try (split; [ intros H; discriminate H
                   | intros (e & He); discriminate He ]).
  all: try (split; [ intros _; eexists; reflexivity | reflexivity ]).
  all: try (split; [ intros H; discriminate H
                   | intros (qt & Hq & _); discriminate Hq ]).
  all: match goal with
       | |- 0 = 0 <-> _ =>
           split; [ intros _; exists (qt_of n); subst n;
                    split; [reflexivity|]; split; [auto | reflexivity]
                  | reflexivity ]
       | |- 3 = 0 <-> _ =>
           split; [ intros H; discriminate H
                  | intros (qt & Hq & Hor & Hin); exfalso;
                    first [ discriminate Hin
                          | injection Hq as <-;
                            destruct Hor as [Hor | Hor];
                            [ apply qt_of_SOA_iff in Hor
                            | apply qt_of_NS_iff in Hor ]; lia ] ]
       end.
Qed.

(** The authority section depends on the question's type alone: it is empty
    for type SOA and holds the zone's SOA record, once, for every other
    integer type, in the zone or out of it. *)
Theorem resolve_authority_by_type (request : DNSRecord.t) (n : Z) :
  has_qtype request n ->
  exists reply,
    snd (resolve request) = inr reply
    /\ DNSRecord.auth reply
       = if n =? QTYPE.SOA then [] else [soa_rr (DNSLabel.of_text BASE_DOMAIN)].
Proof.
  intros Ht. pose proof (resolve_try_int request n Ht) as Hs. cbv zeta in Hs.
  unfold QTYPE.SOA.
  destruct (n =? 6), (n =? 2), (in_zone request); simpl in Hs;
    apply resolve_ok in Hs; eexists; (split; [exact Hs | reflexivity]).
Qed.

(** On every path the response has one question, the request's first; its
    additional section is empty, its authority section has at most one record
    and its header counts agree with its sections. *)
Theorem resolve_echo (request : DNSRecord.t) :
  exists reply,
    snd (resolve request) = inr reply
    /\ DNSRecord.questions reply = [DNSRecord.get_q request]
    /\ DNSRecord.ar reply = []
    /\ (List.length (DNSRecord.auth reply) <= 1)%nat
    /\ well_formed reply.
Proof.
  resolve_paths request; (eexists; split; [exact Hs|]);
    (split; [reflexivity|]); (split; [reflexivity|]);
    (split; [simpl; lia|]); repeat split.
Qed.

(** Every answer record is owned by the queried name, has class 1 and ttl
    [DNS_TTL], and is the configured SOA for a question of type SOA or a
    configured NS for a question of type NS; an authority record is the zone's
    SOA record under the authoritative domain. *)
Theorem resolve_records (request : DNSRecord.t) :
  let qname := DNSQuestion.qname (DNSRecord.get_q request) in
  exists reply,
    snd (resolve request) = inr reply
    /\ Forall
         (fun x =>
            RR.rname x = qname /\ RR.rclass x = 1 /\ RR.ttl x = DNS_TTL
            /\ ((RR.rtype x = QTYPE.SOA /\ RR.rdata x = SOA_RECORD
                 /\ has_qtype request QTYPE.SOA)
                \/ (RR.rtype x = QTYPE.NS /\ In (RR.rdata x) NS_RECORDS
                    /\ has_qtype request QTYPE.NS)))
         (DNSRecord.rr reply)
    /\ Forall (fun x => x = soa_rr (DNSLabel.of_text BASE_DOMAIN))
         (DNSRecord.auth reply).
Proof.
  cbv zeta. unfold has_qtype.
  resolve_paths request; subst; (eexists; split; [exact Hs|]); rewrite ?Ht; simpl;
    (split; [|repeat (apply Forall_cons || apply Forall_nil); reflexivity]);
    repeat (apply Forall_cons || apply Forall_nil);
    (split; [reflexivity|]); (split; [reflexivity|]); (split; [reflexivity|]);
    ((left; repeat split; reflexivity)
     || (right; split; [reflexivity|]; split; [simpl; auto | reflexivity])).
Qed.

(** A question with an integer type leaves two informational log lines, the
    first naming the queried name and the type's mnemonic; a question whose
    type lookup raises leaves one error line and nothing else. *)
Theorem resolve_log (request : DNSRecord.t) :
  let qname := DNSQuestion.qname (DNSRecord.get_q request) in
  (forall n, has_qtype request n ->
     exists outcome,
       fst (resolve request)
       = [ (INFO, "Received query for " ++ DNSLabel.str qname
                  ++ " with type " ++ qt_of n);
           (INFO, outcome) ])
  /\ ((forall n, ~ has_qtype request n) ->
      exists msg,
        fst (resolve request) = [ (ERROR, "Error resolving DNS request: " ++ msg) ]).
Proof.
  cbv zeta. split.
  - intros n Ht. unfold resolve, try_except, resolve_try.
    rewrite Ht, getitem_int. unfold bind, ret, logger_info.
    destruct (String.eqb (qt_of n) "SOA"), (String.eqb (qt_of n) "NS"),
      (_is_valid_domain _); simpl; eexists; reflexivity.
  - intros H. destruct (getitem_not_int _ H) as [e He].
    unfold resolve, try_except, resolve_try. rewrite He. simpl.
    eexists. reflexivity.
Qed.


Lemma resolve_authority_by_type_witness :
  exists reply,
    snd (resolve (query 4660 ["evil"; "com"] (PyInt 15))) = inr reply
    /\ DNSRecord.auth reply = [soa_rr (DNSLabel.of_text BASE_DOMAIN)].
Proof.
  apply (resolve_authority_by_type (query 4660 ["evil"; "com"] (PyInt 15)) 15).
  reflexivity.
Defined.

Lemma resolve_log_witness :
  fst (resolve (query 4660 ["evil"; "com"] (PyInt 65280)))
  = [ (INFO, "Received query for evil.com. with type TYPE65280");
      (INFO, "Returning NXDOMAIN for TYPE65280 query: evil.com.") ].
Proof.
  destruct (resolve_log (query 4660 ["evil"; "com"] (PyInt 65280))) as [H _].
  destruct (H 65280 eq_refl) as [outcome Ho].
  reflexivity.
Defined.

(** ** Zone membership by labels *)

Section ZoneLabels.

Lemma no_dot_app (s1 s2 : string) :
  no_dot (s1 ++ s2) = no_dot s1 && no_dot s2.
Proof.
  unfold no_dot. induction s1 as [|a s1 IH]; simpl; [reflexivity|].
  now rewrite IH, andb_assoc.
Qed.

Lemma decode_char_no_dot (a : ascii) :
  a <> "."%char ->
  no_dot (if DNSLabel.LDH a then String a EmptyString else DNSLabel.escape a) = true.
Proof.
  intros Ha. destruct a as [[] [] [] [] [] [] [] []]; try reflexivity.
  elim Ha. reflexivity.
Qed.

(** The text of a label that holds no dot holds no dot. *)
Lemma decode_no_dot (s : string) :
  no_dot s = true -> no_dot (DNSLabel._decode s) = true.
Proof.
  intros Hs. unfold DNSLabel._decode.
  destruct (DNSLabel.forallb_str DNSLabel.LDH s); [exact Hs|].
  revert Hs. unfold no_dot at 1.
  induction s as [|a s IH]; simpl; [reflexivity|].
  intros H. apply andb_true_iff in H as [Ha Hs].
  rewrite no_dot_app, (IH Hs), andb_true_r.
  apply decode_char_no_dot. intros ->. discriminate Ha.
Qed.

Lemma no_dot_last (s : string) :
  s <> EmptyString -> no_dot s = true ->
  exists c, last_char s = Some c /\ c <> "."%char.
Proof.
  intros Hne Hs. destruct (last_char s) as [c|] eqn:Hc.
  - exists c. split; [reflexivity|].
    pose proof (last_char_forallb _ _ _ Hs Hc) as H. intros ->. discriminate H.
  - elim Hne. exact (last_char_None s Hc).
Qed.

Lemma split_cons (c : ascii) (s : string) :
  exists p ps, PyStr.split c s = p :: ps.
Proof.
  induction s as [|a s (p & ps & IH)]; simpl.
  - now exists EmptyString, [].
  - destruct (Ascii.eqb a c); [now eexists; eexists|].
    rewrite IH. now eexists; eexists.
Qed.

Lemma split_app_sep (c : ascii) (p s : string) :
  PyStr.split c (p ++ String c s) = (PyStr.split c p ++ PyStr.split c s)%list.
Proof.
  induction p as [|a p IH]; simpl.
  - now rewrite Ascii.eqb_refl.
  - destruct (Ascii.eqb a c); [now rewrite IH|].
    rewrite IH. destruct (split_cons c p) as (x & xs & ->). reflexivity.
Qed.

Lemma split_no_dot (s : string) : no_dot s = true -> PyStr.split "." s = [s].
Proof.
  unfold no_dot. induction s as [|a s IH]; simpl; [reflexivity|].
  intros H. apply andb_true_iff in H as [Ha Hs].
  apply negb_true_iff in Ha. rewrite Ha, (IH Hs). reflexivity.
Qed.

(** [split] undoes [join] on parts that hold no dot. *)
Lemma split_join (parts : list string) :
  parts <> [] ->
  Forall (fun p => no_dot p = true) parts ->
  PyStr.split "." (PyStr.join "." parts) = parts.
Proof.
  induction parts as [|p ps IH]; intros Hne Hall; [congruence|].
  inversion Hall as [|? ? Hp Hps]; subst.
  destruct ps as [|p' ps]; [exact (split_no_dot p Hp)|].
  change (PyStr.join "." (p :: p' :: ps))
    with (p ++ String "." (PyStr.join "." (p' :: ps))).
  rewrite split_app_sep, (split_no_dot p Hp), IH; [reflexivity | discriminate | exact Hps].
Qed.

Lemma append_assoc (a b c : string) : (a ++ b) ++ c = a ++ (b ++ c).
Proof. induction a as [|x a IH]; simpl; [reflexivity | now rewrite IH]. Qed.

Lemma join_app (sep : string) (l1 l2 : list string) :
  l1 <> [] -> l2 <> [] ->
  PyStr.join sep (l1 ++ l2) = PyStr.join sep l1 ++ sep ++ PyStr.join sep l2.
Proof.
  intros H1 H2. induction l1 as [|x l1 IH]; [congruence|].
  destruct l1 as [|y l1].
  - simpl. destruct l2; [congruence | reflexivity].
  - change (PyStr.join sep ((x :: y :: l1) ++ l2))
      with (x ++ sep ++ PyStr.join sep ((y :: l1) ++ l2)).
    rewrite IH by discriminate.
    change (PyStr.join sep (x :: y :: l1)) with (x ++ sep ++ PyStr.join sep (y :: l1)).
    now rewrite !append_assoc.
Qed.

(** With no empty label and no dot inside a label, the normalized name is the
    labels' texts joined by dots. *)
Lemma domain_str_join (qname : DNSLabel.t) :
  Forall (fun l => l <> EmptyString /\ no_dot l = true) qname ->
  domain_str qname = PyStr.join "." (map DNSLabel._decode qname).
Proof.
  intros Hall. unfold domain_str, DNSLabel.str.
  destruct qname as [|l ls]; [reflexivity|].
  destruct (join_end (map DNSLabel._decode (l :: ls))) as (c & Hc & Hd).
  - discriminate.
  - apply Forall_map. eapply Forall_impl; [|exact Hall].
    intros s [Hne Hs]. destruct (no_dot_last s Hne Hs) as (c0 & Hc0 & Hd0).
    exact (decode_end s c0 Hc0 Hd0).
  - rewrite rstrip_snoc; [reflexivity|]. rewrite Hc. congruence.
Qed.

End ZoneLabels.

(** For a name with no empty label and no dot inside a label, membership in
    the zone is a matter of labels: the name is in the zone exactly when the
    texts of its labels end with the labels of the authoritative domain.  A
    name that only ends with the domain's letters, with no dot before them, is
    outside. *)
Theorem in_zone_labels (qname : DNSLabel.t) :
  Forall (fun l => l <> EmptyString /\ no_dot l = true) qname ->
  (_is_valid_domain (domain_str qname) = true <->
   exists pre,
     map DNSLabel._decode qname = (pre ++ DNSLabel.of_text BASE_DOMAIN)%list).
Proof.
  intros Hall. rewrite _is_valid_domain_spec, (domain_str_join qname Hall).
  assert (Hnd : Forall (fun p => no_dot p = true) (map DNSLabel._decode qname)).
  { apply Forall_map. eapply Forall_impl; [|exact Hall].
    intros s [_ Hs]. exact (decode_no_dot s Hs). }
  change (DNSLabel.of_text BASE_DOMAIN) with ["romulan"; "zone"].
  split.
  - intros [H | [p H]].
    + exists []. destruct qname as [|l ls]; [vm_compute in H; discriminate H|].
      rewrite <- (split_join (map DNSLabel._decode (l :: ls)));
        [ rewrite H; reflexivity | simpl; discriminate | exact Hnd ].
    + exists (PyStr.split "." p). destruct qname as [|l ls].
      { destruct p; simpl in H; discriminate H. }
      rewrite <- (split_join (map DNSLabel._decode (l :: ls)));
        [ | simpl; discriminate | exact Hnd ].
      rewrite H. change ("." ++ BASE_DOMAIN) with (String "." BASE_DOMAIN).
      rewrite split_app_sep. reflexivity.
  - intros [pre H]. rewrite H. destruct pre as [|x pre].
    + left. reflexivity.
    + right. exists (PyStr.join "." (x :: pre)).
      rewrite join_app by discriminate. reflexivity.
Qed.

Lemma in_zone_labels_witness :
  _is_valid_domain (domain_str ["www"; "romulan"; "zone"]) = true
  /\ _is_valid_domain (domain_str ["notromulan"; "zone"]) = false.
Proof.
  split.
  - apply (in_zone_labels ["www"; "romulan"; "zone"]).
    + repeat constructor; discriminate.
    + exists ["www"]. reflexivity.
  - reflexivity.
Defined.

(** A dot inside a label is past the test of labels: the one label
    [romulan.zone] reads as the authoritative domain and is in the zone. *)
Example in_zone_dotted_label :
  _is_valid_domain (domain_str ["romulan.zone"]) = true.
Proof. reflexivity. Qed.

Lemma rstrip_app (c : ascii) (a b : string) :
  PyStr.rstrip c b <> EmptyString ->
  PyStr.rstrip c (a ++ b) = a ++ PyStr.rstrip c b.
Proof.
  intros Hb. induction a as [|x a IH]; simpl; [reflexivity|].
  rewrite IH. destruct (a ++ PyStr.rstrip c b) eqn:E; [|reflexivity].
  destruct a; simpl in E; [congruence | discriminate].
Qed.

(** Every name under a name of the zone is in the zone: a label put in front
    of an in-zone name gives an in-zone name, whose normalized form is the
    label's text, a dot, and the normalized form of the shorter name. *)
Theorem in_zone_subdomain (qname : DNSLabel.t) (l : string) :
  _is_valid_domain (domain_str qname) = true ->
  domain_str (l :: qname) = DNSLabel._decode l ++ "." ++ domain_str qname
  /\ _is_valid_domain (domain_str (l :: qname)) = true.
Proof.
  intros Hz.
  assert (Hne : domain_str qname <> EmptyString).
  { intros E. rewrite E in Hz. discriminate. }
  assert (Hd : domain_str (l :: qname)
               = DNSLabel._decode l ++ "." ++ domain_str qname).
  { destruct qname as [|q qs]; [elim Hne; reflexivity|].
    unfold domain_str, DNSLabel.str in *.
    change (PyStr.join "." (map DNSLabel._decode (l :: q :: qs)))
      with (DNSLabel._decode l ++ "." ++ PyStr.join "." (map DNSLabel._decode (q :: qs))).
    rewrite !append_assoc.
    rewrite rstrip_app.
    - f_equal. apply (rstrip_app "." "."). exact Hne.
    - rewrite (rstrip_app "." "."); [discriminate | exact Hne]. }
  split; [exact Hd|].
  rewrite Hd. apply _is_valid_domain_spec.
  apply _is_valid_domain_spec in Hz. destruct Hz as [-> | [p ->]].
  - right. exists (DNSLabel._decode l). reflexivity.
  - right. exists (DNSLabel._decode l ++ "." ++ p). now rewrite !append_assoc.
Qed.

Lemma in_zone_subdomain_witness :
  domain_str ["a b"; "romulan"; "zone"] = "a\032b.romulan.zone"
  /\ _is_valid_domain (domain_str ["a b"; "romulan"; "zone"]) = true.
Proof.
  destruct (in_zone_subdomain ["romulan"; "zone"] "a b") as [Hd Hz].
  - reflexivity.
  - split; [reflexivity | exact Hz].
Defined.

(** ** The server's lifecycle *)

Section Heap.

Variable f : DnslibDNSServer.t -> DnslibDNSServer.t.

Lemma update_length (h : nat) (l : list DnslibDNSServer.t) :
  List.length (update h f l) = List.length l.
Proof.
  revert h. induction l as [|x l IH]; intros [|h]; simpl; try reflexivity.
  now rewrite IH.
Qed.

Lemma update_app_here (l r : list DnslibDNSServer.t) (x : DnslibDNSServer.t) :
  update (List.length l) f (l ++ x :: r)%list = (l ++ f x :: r)%list.
Proof. induction l as [|y l IH]; simpl; [reflexivity | now rewrite IH]. Qed.

Lemma update_app_next (l r : list DnslibDNSServer.t) (x y : DnslibDNSServer.t) :
  update (S (List.length l)) f (l ++ x :: y :: r)%list = (l ++ x :: f y :: r)%list.
Proof.
  induction l as [|z l IH]; [reflexivity|].
  change (z :: update (S (List.length l)) f (l ++ x :: y :: r) = z :: l ++ x :: f y :: r)%list.
  now rewrite IH.
Qed.

Lemma nth_error_update (h k : nat) (l : list DnslibDNSServer.t) :
  nth_error (update h f l) k
  = if Nat.eqb k h then option_map f (nth_error l k) else nth_error l k.
Proof.
  revert h k. induction l as [|x l IH]; intros h k.
  - destruct h, k; simpl; try reflexivity. destruct (Nat.eqb k h); reflexivity.
  - destruct h, k; simpl; try reflexivity. apply IH.
Qed.

End Heap.

Import BlackholeDNSServer.

Lemma stop_fold_heap (l : list nat) (w : World) :
  heap (fold_left (fun w server => server_stop server w) l w)
  = fold_left (fun hp server => update server stopped hp) l (heap w).
Proof. revert w. induction l as [|s l IH]; intros w; simpl; [reflexivity | now rewrite IH]. Qed.

Lemma stop_fold_length (l : list nat) (hp : list DnslibDNSServer.t) :
  List.length (fold_left (fun hp server => update server stopped hp) l hp)
  = List.length hp.
Proof.
  revert hp. induction l as [|s l IH]; intros hp; simpl; [reflexivity|].
  now rewrite IH, update_length.
Qed.

Lemma stop_fold_in (l : list nat) (hp : list DnslibDNSServer.t) (k : nat) :
  In k l ->
  nth_error (fold_left (fun hp server => update server stopped hp) l hp) k
  = option_map stopped (nth_error hp k).
Proof.
  revert hp. induction l as [|s l IH]; intros hp Hin; [contradiction|]. simpl.
  destruct (in_dec Nat.eq_dec k l) as [Hl|Hl].
  - rewrite (IH _ Hl), nth_error_update.
    destruct (Nat.eqb k s); [|reflexivity].
    destruct (nth_error hp k); reflexivity.
  - destruct Hin as [<-|Hin]; [|contradiction]. clear IH.
    assert (Hout : forall hp',
               nth_error (fold_left (fun hp server => update server stopped hp) l hp') s
               = nth_error hp' s).
    { revert Hl. clear. induction l as [|x l IH]; intros Hl hp'; [reflexivity|]. simpl.
      rewrite IH by (intros H; apply Hl; now right).
      rewrite nth_error_update.
      destruct (Nat.eqb_spec s x) as [->|]; [elim Hl; now left | reflexivity]. }
    rewrite Hout, nth_error_update, Nat.eqb_refl. reflexivity.
Qed.

Lemma stop_fold_out (l : list nat) (hp : list DnslibDNSServer.t) (k : nat) :
  ~ In k l ->
  nth_error (fold_left (fun hp server => update server stopped hp) l hp) k
  = nth_error hp k.
Proof.
  revert hp. induction l as [|x l IH]; intros hp Hl; [reflexivity|]. simpl.
  rewrite IH by (intros H; apply Hl; now right).
  rewrite nth_error_update.
  destruct (Nat.eqb_spec k x) as [->|]; [elim Hl; now left | reflexivity].
Qed.

Lemma stop_fold_seq (objs l : list DnslibDNSServer.t) :
  fold_left (fun hp server => update server stopped hp)
    (seq (List.length l) (List.length objs)) (l ++ objs)%list
  = (l ++ map stopped objs)%list.
Proof.
  revert l. induction objs as [|x objs IH]; intros l; simpl; [reflexivity|].
  rewrite update_app_here.
  change (l ++ stopped x :: objs)%list with (l ++ [stopped x] ++ objs)%list.
  rewrite app_assoc.
  replace (S (List.length l)) with (List.length (l ++ [stopped x])%list)
    by (rewrite List.length_app; simpl; lia).
  rewrite IH, <- app_assoc. reflexivity.
Qed.

Lemma start_step (self : BlackholeDNSServer.t) (w : World) :
  let self' := fst (start self w) in
  let w' := snd (start self w) in
  servers self'
  = (servers self ++ seq (List.length (heap w)) (List.length (transports self)))%list
  /\ heap w' = (heap w ++ started self)%list
  /\ self' = with_servers self (servers self').
Proof.
  destruct self as [a p t u l], w as [hp lg]. unfold started, transports.
  destruct u, t; cbn -[update PyStr.fmt_d String.append];
    rewrite ?update_app_here; cbn -[update PyStr.fmt_d String.append];
    rewrite ?update_app_here, ?List.length_app; cbn;
    rewrite ?app_nil_r, ?Nat.add_1_r, <- ?app_assoc;
    repeat split.
Qed.

(** One call of [start] creates a server per enabled transport, UDP before
    TCP, each built with the instance's address and port and serving when
    [start] returns; it appends them to [self.servers] in that order and
    changes no object that was there. *)
Theorem start_servers (self : BlackholeDNSServer.t) (w : World) :
  let self' := fst (start self w) in
  let w' := snd (start self w) in
  servers self'
  = (servers self ++ seq (List.length (heap w)) (List.length (transports self)))%list
  /\ heap w' = (heap w ++ started self)%list
  /\ self' = with_servers self (servers self').
Proof.
  cbv zeta. destruct (start_step self w) as (Hs & Hh & Hc).
  split; [exact Hs|]. split; [exact Hh | exact Hc].
Qed.

Lemma start_config (self : BlackholeDNSServer.t) (w : World) :
  started (fst (start self w)) = started self
  /\ transports (fst (start self w)) = transports self.
Proof.
  destruct (start_step self w) as (_ & _ & H). rewrite H.
  destruct self; split; reflexivity.
Qed.

Lemma concat_repeat_length {A : Type} (l : list A) (n : nat) :
  List.length (List.concat (repeat l n)) = (n * List.length l)%nat.
Proof.
  induction n as [|n IH]; simpl; [reflexivity|].
  now rewrite List.length_app, IH.
Qed.

Lemma start_n_step (n : nat) (self : BlackholeDNSServer.t) (w : World) :
  let self' := fst (start_n n self w) in
  let w' := snd (start_n n self w) in
  servers self'
  = (servers self
     ++ seq (List.length (heap w)) (n * List.length (transports self)))%list
  /\ heap w' = (heap w ++ List.concat (repeat (started self) n))%list
  /\ self' = with_servers self (servers self').
Proof.
  cbv zeta. revert self w. induction n as [|n IH]; intros self w.
  - simpl. rewrite !app_nil_r. destruct self; repeat split.
  - simpl. destruct (start self w) as [s1 w1] eqn:E.
    pose proof (start_step self w) as (Hs & Hh & Hc).
    pose proof (start_config self w) as (Hst & Htr).
    rewrite E in Hs, Hh, Hc, Hst, Htr. simpl in Hs, Hh, Hc, Hst, Htr.
    destruct (IH s1 w1) as (IHs & IHh & IHc).
    split; [|split].
    + rewrite IHs, Hs, Hh, Htr.
      rewrite <- app_assoc, List.length_app. f_equal.
      unfold started. rewrite length_map. now rewrite seq_app.
    + rewrite IHh, Hh, Hst. now rewrite <- app_assoc.
    + rewrite IHc. rewrite Hc at 1. destruct self; reflexivity.
Qed.

(** While every bind succeeds, [start] is not idempotent: each call creates
    and starts a new server per enabled transport and appends it to
    [self.servers]. *)
Theorem start_n_servers (n : nat) (self : BlackholeDNSServer.t) (w : World) :
  let self' := fst (start_n n self w) in
  let w' := snd (start_n n self w) in
  servers self'
  = (servers self
     ++ seq (List.length (heap w)) (n * List.length (transports self)))%list
  /\ heap w' = (heap w ++ List.concat (repeat (started self) n))%list
  /\ self' = with_servers self (servers self').
Proof.
  cbv zeta. destruct (start_n_step n self w) as (Hs & Hh & Hc).
  split; [exact Hs|]. split; [exact Hh | exact Hc].
Qed.

(** [stop] stops every server of [self.servers] and no other, creates and
    removes no object, and leaves the list empty. *)
Theorem stop_all (self : BlackholeDNSServer.t) (w : World) :
  let self' := fst (stop self w) in
  let w' := snd (stop self w) in
  self' = with_servers self []
  /\ List.length (heap w') = List.length (heap w)
  /\ (forall h, In h (servers self) ->
                nth_error (heap w') h = option_map stopped (nth_error (heap w) h))
  /\ (forall h, ~ In h (servers self) ->
                nth_error (heap w') h = nth_error (heap w) h).
Proof.
  cbv zeta. unfold stop. simpl. rewrite stop_fold_heap. simpl.
  split; [reflexivity|]. split; [apply stop_fold_length|]. split.
  - intros h Hin. now apply stop_fold_in.
  - intros h Hout. now apply stop_fold_out.
Qed.

(** After any number of [start]s on a new instance, every bind succeeding,
    one [stop] stops every server they created, touches no other object, and
    empties the list. *)
Theorem start_n_stop (n : nat) (address : string) (port : Z) (tcp udp : bool)
    (w : World) :
  let self := __init__ address port tcp udp in
  let s1 := fst (start_n n self w) in
  let w1 := snd (start_n n self w) in
  fst (stop s1 w1) = self
  /\ heap (snd (stop s1 w1))
     = (heap w ++ map stopped (List.concat (repeat (started self) n)))%list
  /\ List.length (List.concat (repeat (started self) n))
     = (n * List.length (transports self))%nat.
Proof.
  cbv zeta.
  pose proof (start_n_step n (__init__ address port tcp udp) w) as (Hs & Hh & Hc).
  cbv zeta in Hs, Hh, Hc.
  destruct (start_n n (__init__ address port tcp udp) w) as [s1 w1].
  simpl fst in *. simpl snd in *. simpl in Hs.
  assert (Hlen : List.length (List.concat (repeat (started (__init__ address port tcp udp)) n))
                 = (n * List.length (transports (__init__ address port tcp udp)))%nat).
  { rewrite concat_repeat_length. unfold started. now rewrite length_map. }
  split; [|split; [|exact Hlen]].
  - unfold stop. cbn [fst]. rewrite Hc. reflexivity.
  - unfold stop. cbn [snd log_info heap]. rewrite stop_fold_heap. cbn [log_info heap].
    rewrite Hs, Hh, <- Hlen. apply stop_fold_seq.
Qed.

(** [stop] with nothing to stop, on a new instance or after a [stop],
    touches no server object and writes its two log lines. *)
Theorem stop_nothing (self : BlackholeDNSServer.t) (w : World) :
  servers self = [] ->
  fst (stop self w) = self
  /\ heap (snd (stop self w)) = heap w
  /\ log (snd (stop self w))
     = (log w ++ [ (INFO, "Stopping Blackhole DNS server");
                   (INFO, "Blackhole DNS server stopped") ])%list.
Proof.
  intros H. unfold stop. rewrite H. simpl.
  split; [destruct self; simpl in H; subst; reflexivity|].
  split; [reflexivity|]. now rewrite <- app_assoc.
Qed.

Lemma stop_nothing_witness :
  let self := __init__ "0.0.0.0" 53 true true in
  let w := mkWorld [] [] in
  fst (stop self w) = self
  /\ heap (snd (stop self w)) = []
  /\ log (snd (stop self w))
     = [ (INFO, "Stopping Blackhole DNS server");
         (INFO, "Blackhole DNS server stopped") ].
Proof.
  cbv zeta.
  apply (stop_nothing (__init__ "0.0.0.0" 53 true true) (mkWorld [] [])).
  reflexivity.
Defined.
